(** * WorkflowActivator.vue: the workflow activation switch

    A shallow embedding of the script part of
    [packages/editor-ui/src/components/WorkflowActivator.vue]: the computed
    properties ([isWorkflowActive], [couldNotBeStarted], [getActiveColor],
    [disabled], [isCurrentWorkflow], [containsTrigger]) as pure functions of
    the props and the store, and the two async methods ([activeChanged],
    [displayActivationError]) as programs of a small state monad with early
    return and exceptions, which threads the component state and logs every
    interaction with a collaborator (store, REST client, dialogs, hooks). *)

From Stdlib Require Import String List Bool ZArith Sorted.
From stdpp Require Import base option list strings gmap.

Open Scope string_scope.

(** ** Data *)

(** A workflow id is carried as the untyped prop has it: [undefined]
    ([None]) or a string. JavaScript truthiness of a value that is
    [undefined], [null] or a string: only a non-empty string is truthy. *)
Definition truthy (v : option string) : bool :=
  match v with
  | Some s => negb (String.eqb s "")
  | None => false
  end.

(** [v === undefined] *)
Definition is_undefined (v : option string) : bool :=
  match v with
  | Some _ => false
  | None => true
  end.

(** The values of the fields of an [IWorkflowDataUpdate]: the [active] flag
    is a boolean, every other field (name, nodes, connections, settings,
    tags) is carried as its JSON text. *)
Inductive JsVal : Type :=
  | VBool (b : bool)
  | VJson (json : string).

#[global] Instance JsVal_eq_dec : EqDecision JsVal.
Proof. solve_decision. Defined.

(** [IWorkflowDataUpdate] is a plain object: a finite map from field names
    to values; [{}] is the empty map and [data.active = b] an insert. *)
Abbreviation IWorkflowDataUpdate := (gmap string JsVal).

(** The part of [INodeUi] the component reads: the optional [disabled]
    flag of a node. *)
Record INodeUi : Type := { node_name : string; node_disabled : option bool }.

(** What [getActivationError] resolves to when an error is recorded:
    [errorData.error.message]. *)
Record IActivationError : Type := { error_message : string }.

Definition Error : Type := string.

(** The props of the component; the parent binds [workflowActive] to the
    boolean activation flag of the workflow. *)
Record Props : Type := { workflowActive : bool; workflowId : option string }.

(** The three store mutations the component commits. *)
Inductive Mutation : Type :=
  | setActive (newActive : bool)
  | setWorkflowActive (id : option string)
  | setWorkflowInactive (id : option string).

(** The store as the component sees it: the getters and the piece of state
    it reads, and [commit]. The store itself is owned by another part of
    the application, so its carrier and its mutations stay abstract. *)
Class VuexStore (Store : Type) : Type := {
  getters_nodesIssuesExist : Store -> bool;
  getters_getStateIsDirty : Store -> bool;
  getters_getActiveWorkflows : Store -> list string;
  getters_workflowTriggerNodes : Store -> list INodeUi;
  getters_workflowId : Store -> option string;
  state_workflow_id : Store -> option string;
  commit : Mutation -> Store -> Store
}.

(** Everything outside the component that an awaited call may change while
    the method is suspended: the props (the parent re-renders), the store
    and the browser's local storage. *)
Record World (Store : Type) : Type := {
  props : Props;
  store : Store;
  localStorage : gmap string string
}.
Arguments props {Store} _.
Arguments store {Store} _.
Arguments localStorage {Store} _.

(** The argument of [$showMessage]. *)
Record Message : Type := {
  title : string;
  message : string;
  type : string;
  duration : option Z
}.

(** One entry of the interaction log, in the order the calls are made. *)
Inductive Event : Type :=
  | EvSaveCurrentWorkflow
  | EvNodesIssuesCheck (issues : bool)
  | EvShowMessage (m : Message)
  | EvConfirmMessage (msg headline kind confirmButtonText : string) (answer : bool)
  | EvGetWorkflowDataToSave
  | EvLoading (b : bool)
  | EvUpdateWorkflow (id : option string) (data : IWorkflowDataUpdate)
                     (failure : option Error)
  | EvShowError (error : Error) (title message : string)
  | EvCommit (m : Mutation)
  | EvDispatch (action : string) (payload : option string)
  | EvExternalHook (eventName : string) (workflowId : option string) (active : bool)
  | EvTelemetryTrack (eventName : string) (workflow_id : option string) (is_active : bool)
  | EvEmit (eventName : string) (id : option string) (active : bool)
  | EvGetActivationError (id : option string) (failed : bool).

(** The state a method runs in: the world, the component's own [loading]
    flag and the log. *)
Record Vm (Store : Type) : Type := {
  world : World Store;
  loading : bool;
  trace : list Event
}.
Arguments world {Store} _.
Arguments loading {Store} _.
Arguments trace {Store} _.

(** ** The method monad *)

(** A statement either falls through with a value, executes [return], or
    throws. *)
Inductive Outcome (A : Type) : Type :=
  | Normal (a : A)
  | Returned
  | Thrown (e : Error).
Arguments Normal {A} a.
Arguments Returned {A}.
Arguments Thrown {A} e.

Module Method.

Definition M (Store A : Type) : Type := Vm Store -> Outcome A * Vm Store.

Section Monad.
Context {Store : Type}.
Local Abbreviation M := (M Store).

Definition pure {A} (a : A) : M A := fun vm => (Normal a, vm).

Definition bind {A B} (m : M A) (k : A -> M B) : M B :=
  fun vm =>
    match m vm with
    | (Normal a, vm') => k a vm'
    | (Returned, vm') => (Returned, vm')
    | (Thrown e, vm') => (Thrown e, vm')
    end.

(** [return;] *)
Definition return_ {A} : M A := fun vm => (Returned, vm).

(** [try { body } catch (error) { handler }] *)
Definition try_catch {A} (body : M A) (handler : Error -> M A) : M A :=
  fun vm =>
    match body vm with
    | (Thrown e, vm') => handler e vm'
    | r => r
    end.

(** [if (c) { body }] *)
Definition when (c : bool) (body : M unit) : M unit :=
  if c then body else pure tt.

Definition read {A} (f : World Store -> A) : M A :=
  fun vm => (Normal (f (world vm)), vm).

Definition log (ev : Event) : M unit :=
  fun vm => (Normal tt,
             {| world := world vm; loading := loading vm;
                trace := trace vm ++ [ev] |}).

Definition set_loading (b : bool) : M unit :=
  fun vm => (Normal tt,
             {| world := world vm; loading := b;
                trace := trace vm ++ [EvLoading b] |}).

(** An awaited call to a collaborator: the method is suspended, the
    collaborator answers and leaves the world as it likes. *)
Definition await {A} (call : World Store -> A * World Store)
    (ev : A -> Event) : M A :=
  fun vm =>
    let '(a, w') := call (world vm) in
    (Normal a,
     {| world := w'; loading := loading vm; trace := trace vm ++ [ev a] |}).

(** An awaited call whose promise may be rejected. *)
Definition await_rest {A} (call : World Store -> (Error + A) * World Store)
    (ev : Error + A -> Event) : M A :=
  fun vm =>
    let '(r, w') := call (world vm) in
    let vm' := {| world := w'; loading := loading vm;
                  trace := trace vm ++ [ev r] |} in
    match r with
    | inl e => (Thrown e, vm')
    | inr a => (Normal a, vm')
    end.
End Monad.
End Method.

Import Method.

Declare Scope method_scope.
Delimit Scope method_scope with method.
Notation "x <- m ;; k" := (bind m (fun x => k))
  (at level 100, m at next level, k at level 200, right associativity,
   only parsing) : method_scope.
Notation "m ;;; k" := (bind m (fun _ => k))
  (at level 100, k at level 200, right associativity, only parsing)
  : method_scope.

(** ** The component *)

(** The mixins the component is built from live in other files; the
    methods it awaits are taken as they are typed there. The three helper
    promises ([saveCurrentWorkflow], [confirmMessage],
    [getWorkflowDataToSave]) resolve to a value; the two REST calls may be
    rejected, which is what the source guards with [try]/[catch]. Each call
    answers from the world it is made in and may leave another world
    behind. *)
Record Mixins (Store : Type) : Type := {
  saveCurrentWorkflow : World Store -> bool * World Store;
  confirmMessage :
    string -> string -> string -> string -> World Store -> bool * World Store;
  getWorkflowDataToSave : World Store -> IWorkflowDataUpdate * World Store;
  updateWorkflow :
    option string -> IWorkflowDataUpdate -> World Store ->
    (Error + unit) * World Store;
  getActivationError :
    option string -> World Store ->
    (Error + option IActivationError) * World Store
}.
Arguments saveCurrentWorkflow {Store} _ _.
Arguments confirmMessage {Store} _ _ _ _ _ _.
Arguments getWorkflowDataToSave {Store} _ _.
Arguments updateWorkflow {Store} _ _ _ _.
Arguments getActivationError {Store} _ _ _.

Section WorkflowActivator.
Context {Store : Type} `{VuexStore Store}.
Local Abbreviation M := (M Store).

(** The two constants imported from [@/constants]. *)
Variable WORKFLOW_ACTIVE_MODAL_KEY : string.
Variable LOCAL_STORAGE_ACTIVATION_FLAG : string.

Variable mixins : Mixins Store.

(** *** Computed properties *)

Definition dirtyState (w : World Store) : bool :=
  getters_getStateIsDirty (store w).

Definition nodesIssuesExist (w : World Store) : bool :=
  getters_nodesIssuesExist (store w).

(** [activeWorkflows.includes(this.workflowId)]: the active set holds
    strings, so [undefined] is never included. *)
Definition isWorkflowActive (w : World Store) : bool :=
  let activeWorkflows := getters_getActiveWorkflows (store w) in
  match workflowId (props w) with
  | Some id => bool_decide (id ∈ activeWorkflows)
  | None => false
  end.

Definition couldNotBeStarted (w : World Store) : bool :=
  Bool.eqb (workflowActive (props w)) true
  && negb (Bool.eqb (isWorkflowActive w) (workflowActive (props w))).

Definition getActiveColor (w : World Store) : string :=
  if Bool.eqb (couldNotBeStarted w) true then "#ff4949" else "#13ce66".

Definition isCurrentWorkflow (w : World Store) : bool :=
  truthy (workflowId (props w))
  && bool_decide (state_workflow_id (store w) = workflowId (props w)).

(** [!node.disabled] on an optional boolean. *)
Definition node_enabled (node : INodeUi) : bool :=
  match node_disabled node with
  | Some true => false
  | _ => true
  end.

Definition containsTrigger (w : World Store) : bool :=
  let foundTriggers :=
    List.filter node_enabled (getters_workflowTriggerNodes (store w)) in
  Nat.ltb 0 (length foundTriggers).

Definition disabled (w : World Store) : bool :=
  if isCurrentWorkflow w
  then negb (workflowActive (props w)) && negb (containsTrigger w)
  else false.

(** *** Primitive calls, each logged *)

Definition showMessage (m : Message) : M unit := log (EvShowMessage m).

Definition showError (error : Error) (title message : string) : M unit :=
  log (EvShowError error title message).

Definition store_commit (m : Mutation) : M unit :=
  fun vm =>
    (Normal tt,
     {| world := {| props := props (world vm);
                    store := commit m (store (world vm));
                    localStorage := localStorage (world vm) |};
        loading := loading vm;
        trace := trace vm ++ [EvCommit m] |}).

Definition store_dispatch (action : string) (payload : option string) : M unit :=
  log (EvDispatch action payload).

Definition localStorage_getItem (key : string) : M (option string) :=
  read (fun w => localStorage w !! key).

Definition blockingMessage : Message :=
  {| title := "Problem activating workflow";
     message := "It is only possible to activate a workflow when all issues on all nodes got resolved!";
     type := "error";
     duration := None |}.

Definition confirmText : string :=
  "When you activate the workflow all currently unsaved changes of the workflow will be saved.".

(** *** [activeChanged] *)

Definition activeChanged (newActiveState : bool) : M unit :=
  (id0 <- read (fun w => workflowId (props w)) ;;
   when (is_undefined id0)
     (_ <- await (saveCurrentWorkflow mixins) (fun _ => EvSaveCurrentWorkflow) ;;
      pure tt) ;;;

   issues <- read nodesIssuesExist ;;
   log (EvNodesIssuesCheck issues) ;;;
   when (Bool.eqb issues true)
     (showMessage blockingMessage ;;;
      return_) ;;;

   (* Set that the active state should be changed *)
   activeWorkflowId <- read (fun w => getters_workflowId (store w)) ;;
   id1 <- read (fun w => workflowId (props w)) ;;
   data <-
     (if Bool.eqb newActiveState true && bool_decide (id1 = activeWorkflowId)
      then
        dirty <- read dirtyState ;;
        when dirty
          (importConfirm <-
             await (confirmMessage mixins confirmText "Activate and save?"
                      "warning" "Yes, activate and save!")
                   (EvConfirmMessage confirmText "Activate and save?"
                      "warning" "Yes, activate and save!") ;;
           when (Bool.eqb importConfirm false) return_) ;;;
        (* Get the current workflow data that it gets saved together with
           the activation *)
        await (getWorkflowDataToSave mixins) (fun _ => EvGetWorkflowDataToSave)
      else pure (∅ : IWorkflowDataUpdate)) ;;

   let data := <["active" := VBool newActiveState]> data in

   set_loading true ;;;

   try_catch
     (id2 <- read (fun w => workflowId (props w)) ;;
      await_rest (updateWorkflow mixins id2 data)
        (fun r => EvUpdateWorkflow id2 data
                    match r with inl e => Some e | inr _ => None end))
     (fun error =>
        let newStateName :=
          if Bool.eqb newActiveState true then "activated" else "deactivated" in
        showError error "Problem"
          ("There was a problem and the workflow could not be "
             +:+ newStateName +:+ ":") ;;;
        set_loading false ;;;
        return_) ;;;

   currentWorkflowId <- read (fun w => getters_workflowId (store w)) ;;
   id3 <- read (fun w => workflowId (props w)) ;;
   activationEventName <-
     (if bool_decide (currentWorkflowId = id3)
      then
        (* If the status of the current workflow got changed commit it
           specifically *)
        store_commit (setActive newActiveState) ;;;
        pure "workflow.activeChangeCurrent"
      else pure "workflow.activeChange") ;;

   (if Bool.eqb newActiveState true
    then
      store_commit (setWorkflowActive id3) ;;;
      (* Show activation dialog only for current workflow and if user
         hasn't deactivated it *)
      current <- read isCurrentWorkflow ;;
      flag <- localStorage_getItem LOCAL_STORAGE_ACTIVATION_FLAG ;;
      when (current && negb (truthy flag))
        (store_dispatch "ui/openModal" (Some WORKFLOW_ACTIVE_MODAL_KEY))
    else
      store_commit (setWorkflowInactive id3)) ;;;

   log (EvExternalHook activationEventName id3 newActiveState) ;;;
   log (EvTelemetryTrack "User set workflow active status" id3 newActiveState) ;;;

   log (EvEmit "workflowActiveChanged" id3 newActiveState) ;;;
   set_loading false ;;;
   store_dispatch "settings/fetchPromptsData" None)%method.

(** *** [displayActivationError] *)

Definition displayActivationError : M unit :=
  (errorMessage <-
     try_catch
       (id <- read (fun w => workflowId (props w)) ;;
        errorData <-
          await_rest (getActivationError mixins id)
            (fun r => EvGetActivationError id
                        match r with inl _ => true | inr _ => false end) ;;
        match errorData with
        | None =>
            pure "Sorry there was a problem. No error got found to display."
        | Some errorData =>
            pure ("The following error occurred on workflow activation:<br /><i>"
                    +:+ error_message errorData +:+ "</i>")
        end)
       (fun error => pure "Sorry there was a problem requesting the error") ;;

   showMessage {| title := "Problem activating workflow";
                  message := errorMessage;
                  type := "warning";
                  duration := Some 0%Z |})%method.

(** A user interaction starts a method on the component with an empty log. *)
Definition start (w : World Store) (loading0 : bool) : Vm Store :=
  {| world := w; loading := loading0; trace := [] |}.

(** *** The timeline of one toggle

    The worlds in which the successive statements of [activeChanged] run,
    each obtained from the previous one by the awaited call in between. *)

(** The world in which line 107 reads [nodesIssuesExist]: the initial one,
    or the one [saveCurrentWorkflow] left when the prop had no id. *)
Definition atValidation (w : World Store) : World Store :=
  if is_undefined (workflowId (props w))
  then snd (saveCurrentWorkflow mixins w)
  else w.

Definition savedFirst (w : World Store) : list Event :=
  if is_undefined (workflowId (props w)) then [EvSaveCurrentWorkflow] else [].

(** The test of line 120: the toggle activates the workflow that is open
    in the editor. *)
Definition savesWholeWorkflow (newActiveState : bool) (w : World Store) : bool :=
  Bool.eqb newActiveState true
  && bool_decide (workflowId (props (atValidation w))
                  = getters_workflowId (store (atValidation w))).

(** The confirmation prompt is shown. *)
Definition prompts (newActiveState : bool) (w : World Store) : bool :=
  savesWholeWorkflow newActiveState w && dirtyState (atValidation w).

Definition prompt (w : World Store) : bool * World Store :=
  confirmMessage mixins confirmText "Activate and save?" "warning"
    "Yes, activate and save!" (atValidation w).

(** The answer to the prompt; a toggle that does not prompt goes on. *)
Definition confirmed (newActiveState : bool) (w : World Store) : bool :=
  if prompts newActiveState w then fst (prompt w) else true.

Definition afterPrompt (newActiveState : bool) (w : World Store) : World Store :=
  if prompts newActiveState w then snd (prompt w) else atValidation w.

Definition promptLog (newActiveState : bool) (w : World Store) : list Event :=
  if prompts newActiveState w
  then [EvConfirmMessage confirmText "Activate and save?" "warning"
          "Yes, activate and save!" (fst (prompt w))]
  else [].

(** What [getWorkflowDataToSave] resolved to. *)
Definition snapshot (newActiveState : bool) (w : World Store) : IWorkflowDataUpdate :=
  fst (getWorkflowDataToSave mixins (afterPrompt newActiveState w)).

(** The payload of the request. *)
Definition requestData (newActiveState : bool) (w : World Store) : IWorkflowDataUpdate :=
  <["active" := VBool newActiveState]>
    (if savesWholeWorkflow newActiveState w then snapshot newActiveState w else ∅).

(** The world in which the request is sent. *)
Definition atRequest (newActiveState : bool) (w : World Store) : World Store :=
  if savesWholeWorkflow newActiveState w
  then snd (getWorkflowDataToSave mixins (afterPrompt newActiveState w))
  else atValidation w.

Definition snapshotLog (newActiveState : bool) (w : World Store) : list Event :=
  if savesWholeWorkflow newActiveState w then [EvGetWorkflowDataToSave] else [].

Definition requestId (newActiveState : bool) (w : World Store) : option string :=
  workflowId (props (atRequest newActiveState w)).

Definition response (newActiveState : bool) (w : World Store)
    : (Error + unit) * World Store :=
  updateWorkflow mixins (requestId newActiveState w)
    (requestData newActiveState w) (atRequest newActiveState w).

(** The world the answer of the server arrives in, and the id the prop
    holds from then on. *)
Definition atResponse (newActiveState : bool) (w : World Store) : World Store :=
  snd (response newActiveState w).

Definition committedId (newActiveState : bool) (w : World Store) : option string :=
  workflowId (props (atResponse newActiveState w)).

(** The test of line 151. *)
Definition changesCurrent (newActiveState : bool) (w : World Store) : bool :=
  bool_decide (getters_workflowId (store (atResponse newActiveState w))
               = committedId newActiveState w).

Definition with_store (w : World Store) (s : Store) : World Store :=
  {| props := props w; store := s; localStorage := localStorage w |}.

(** The world after the commits of lines 154 to 166. *)
Definition committed (newActiveState : bool) (w : World Store) : World Store :=
  let w4 := atResponse newActiveState w in
  let s1 :=
    if changesCurrent newActiveState w
    then commit (setActive newActiveState) (store w4)
    else store w4 in
  with_store w4
    (commit (if newActiveState
             then setWorkflowActive (committedId newActiveState w)
             else setWorkflowInactive (committedId newActiveState w)) s1).

(** The test of line 162, read after the commits. *)
Definition opensModal (newActiveState : bool) (w : World Store) : bool :=
  newActiveState
  && (isCurrentWorkflow (committed newActiveState w)
      && negb (truthy (localStorage (committed newActiveState w)
                         !! LOCAL_STORAGE_ACTIVATION_FLAG))).

Definition commitLog (newActiveState : bool) (w : World Store) : list Event :=
  (if changesCurrent newActiveState w
   then [EvCommit (setActive newActiveState)] else [])
  ++ (if newActiveState
      then EvCommit (setWorkflowActive (committedId newActiveState w))
           :: (if opensModal newActiveState w
               then [EvDispatch "ui/openModal" (Some WORKFLOW_ACTIVE_MODAL_KEY)]
               else [])
      else [EvCommit (setWorkflowInactive (committedId newActiveState w))]).

Definition activationEventName (newActiveState : bool) (w : World Store) : string :=
  if changesCurrent newActiveState w
  then "workflow.activeChangeCurrent" else "workflow.activeChange".

Definition emissionLog (newActiveState : bool) (w : World Store) : list Event :=
  [EvExternalHook (activationEventName newActiveState w)
     (committedId newActiveState w) newActiveState;
   EvTelemetryTrack "User set workflow active status"
     (committedId newActiveState w) newActiveState;
   EvEmit "workflowActiveChanged" (committedId newActiveState w) newActiveState].

Definition failureText (newActiveState : bool) : string :=
  "There was a problem and the workflow could not be "
    +:+ (if newActiveState then "activated" else "deactivated") +:+ ":".

(** The log of a toggle up to and including the request. *)
Definition requestLog (newActiveState : bool) (w : World Store)
    (failure : option Error) : list Event :=
  savedFirst w ++ [EvNodesIssuesCheck false] ++ promptLog newActiveState w
  ++ snapshotLog newActiveState w
  ++ [EvLoading true;
      EvUpdateWorkflow (requestId newActiveState w)
        (requestData newActiveState w) failure].

(** *** Classification of the log *)

Definition isUpdateWorkflow (ev : Event) : bool :=
  match ev with EvUpdateWorkflow _ _ _ => true | _ => false end.

Definition isCommit (ev : Event) : bool :=
  match ev with EvCommit _ => true | _ => false end.

Definition isSave (ev : Event) : bool :=
  match ev with EvSaveCurrentWorkflow => true | _ => false end.

Definition isConfirm (ev : Event) : bool :=
  match ev with EvConfirmMessage _ _ _ _ _ => true | _ => false end.

Definition isModal (ev : Event) : bool :=
  match ev with
  | EvDispatch action _ => String.eqb action "ui/openModal"
  | _ => false
  end.

Definition isSnapshot (ev : Event) : bool :=
  match ev with EvGetWorkflowDataToSave => true | _ => false end.

Definition isFailedUpdate (ev : Event) : bool :=
  match ev with EvUpdateWorkflow _ _ (Some _) => true | _ => false end.

Definition isResolvedUpdate (ev : Event) : bool :=
  match ev with EvUpdateWorkflow _ _ None => true | _ => false end.

Definition isDeclined (ev : Event) : bool :=
  match ev with EvConfirmMessage _ _ _ _ false => true | _ => false end.

(** Every [target] call of the log comes after some [guard] call. *)
Fixpoint guarded (guard target : Event -> bool) (log : list Event) : bool :=
  match log with
  | [] => true
  | ev :: rest =>
      negb (target ev) && (guard ev || guarded guard target rest)
  end.




(** The three notifications of a change: the external hook, the telemetry
    record and the component event. *)
Definition isEmission (ev : Event) : bool :=
  match ev with
  | EvExternalHook _ _ _ | EvTelemetryTrack _ _ _ | EvEmit _ _ _ => true
  | _ => false
  end.

(** What the method does to the application once the server has answered:
    a commit, the modal, or a notification. *)
Definition isEffectOfSuccess (ev : Event) : bool :=
  isCommit ev || isModal ev || isEmission ev.

(** The stage of a call in the order the method makes them: saving a
    workflow that has no id yet (0), validation (1), confirmation (2),
    collecting the snapshot to save (3), the request with its loading flag
    and its failure dialog (4), the store (5), the events (6), the reset
    of the loading flag (7), the refresh of the prompts (8). *)
Definition stage (ev : Event) : nat :=
  match ev with
  | EvSaveCurrentWorkflow => 0
  | EvNodesIssuesCheck _ | EvShowMessage _ => 1
  | EvConfirmMessage _ _ _ _ _ => 2
  | EvGetWorkflowDataToSave => 3
  | EvLoading true | EvUpdateWorkflow _ _ _ | EvShowError _ _ _ => 4
  | EvGetActivationError _ _ => 4
  | EvCommit _ => 5
  | EvDispatch action _ => if String.eqb action "ui/openModal" then 5 else 8
  | EvExternalHook _ _ _ | EvTelemetryTrack _ _ _ | EvEmit _ _ _ => 6
  | EvLoading false => 7
  end.

(** The stages as the specification lists them: validation, optional
    confirmation, optional save, network call, store commit, event
    emission, UI reset. Every save of the workflow is in the third stage. *)
Definition listedStage (ev : Event) : nat :=
  match ev with
  | EvSaveCurrentWorkflow => 3
  | _ => stage ev
  end.

Definition inOrder (rank : Event -> nat) (log : list Event) : Prop :=
  StronglySorted (fun a b => rank a <= rank b) log.

End WorkflowActivator.

Arguments activeChanged {Store _} _ _ _ _ _.
Arguments displayActivationError {Store} _ _.

(** The same collaborators, except that [saveCurrentWorkflow] resolves to
    [answer]; it leaves the world it would have left. *)
Definition withSaveResult {Store : Type} (answer : bool) (mx : Mixins Store)
    : Mixins Store :=
  {| saveCurrentWorkflow := fun w => (answer, snd (saveCurrentWorkflow mx w));
     confirmMessage := confirmMessage mx;
     getWorkflowDataToSave := getWorkflowDataToSave mx;
     updateWorkflow := updateWorkflow mx;
     getActivationError := getActivationError mx |}.

(** ** A concrete store and concrete collaborators *)

Module Demo.

(** The fields of the application store that the component reads or
    writes. *)
Record Store : Type := {
  issues : bool;
  dirty : bool;
  activeWorkflows : list string;
  triggerNodes : list INodeUi;
  workflow_id : option string;
  workflow_active : bool
}.

(** Modelled from the spec: the store mutations, which live in the
    application store and not in this component. [setActive] sets the
    active flag of the open workflow, [setWorkflowActive] adds the workflow
    id to the active set and [setWorkflowInactive] removes it. *)
Definition apply (m : Mutation) (s : Store) : Store :=
  match m with
  | setActive b =>
      {| issues := issues s; dirty := dirty s;
         activeWorkflows := activeWorkflows s;
         triggerNodes := triggerNodes s;
         workflow_id := workflow_id s; workflow_active := b |}
  | setWorkflowActive (Some id) =>
      {| issues := issues s; dirty := dirty s;
         activeWorkflows :=
           if bool_decide (id ∈ activeWorkflows s) then activeWorkflows s
           else activeWorkflows s ++ [id];
         triggerNodes := triggerNodes s;
         workflow_id := workflow_id s; workflow_active := workflow_active s |}
  | setWorkflowInactive (Some id) =>
      {| issues := issues s; dirty := dirty s;
         activeWorkflows :=
           List.filter (fun x => negb (String.eqb x id)) (activeWorkflows s);
         triggerNodes := triggerNodes s;
         workflow_id := workflow_id s; workflow_active := workflow_active s |}
  | _ => s
  end.

#[global] Instance vuex : VuexStore Store := {|
  getters_nodesIssuesExist := issues;
  getters_getStateIsDirty := dirty;
  getters_getActiveWorkflows := activeWorkflows;
  getters_workflowTriggerNodes := triggerNodes;
  getters_workflowId := workflow_id;
  state_workflow_id := workflow_id;
  commit := apply
|}.

(** Saving a workflow that has no id yet stores it under the id ["1"],
    clears the dirty flag, and the parent hands the new id down. *)
Definition save (w : World Store) : bool * World Store :=
  (true,
   {| props := {| workflowActive := workflowActive (props w);
                  workflowId := Some "1" |};
      store := {| issues := issues (store w); dirty := false;
                  activeWorkflows := activeWorkflows (store w);
                  triggerNodes := triggerNodes (store w);
                  workflow_id := Some "1";
                  workflow_active := workflow_active (store w) |};
      localStorage := localStorage w |}).

(** Collaborators that leave the world alone and answer as told. *)
Definition collaborators (answer : bool) (snapshot : IWorkflowDataUpdate)
    (reply : Error + unit) (lookup : Error + option IActivationError)
    : Mixins Store :=
  {| saveCurrentWorkflow := save;
     confirmMessage := fun _ _ _ _ w => (answer, w);
     getWorkflowDataToSave := fun w => (snapshot, w);
     updateWorkflow := fun _ _ w => (reply, w);
     getActivationError := fun _ w => (lookup, w) |}.

Definition trigger : INodeUi :=
  {| node_name := "Cron"; node_disabled := None |}.

Definition snapshot : IWorkflowDataUpdate :=
  <["name" := VJson "My workflow"]> (<["nodes" := VJson "[]"]> ∅).

(** The workflow ["1"] is open in the editor; [id] is the workflow the
    switch belongs to. *)
Definition initial (id : option string) (active issues dirty : bool)
    (flag : option string) : World Store :=
  {| props := {| workflowActive := active; workflowId := id |};
     store := {| issues := issues; dirty := dirty;
                 activeWorkflows := []; triggerNodes := [];
                 workflow_id := Some "1"; workflow_active := active |};
     localStorage :=
       match flag with
       | Some v => <["N8N_HIDE_ACTIVATION_ALERT" := v]> ∅
       | None => ∅
       end |}.

Definition MODAL_KEY : string := "activation".
Definition FLAG : string := "N8N_HIDE_ACTIVATION_ALERT".

End Demo.

(** ** The four ways a toggle ends *)

Lemma eqb_true_r (x : bool) : Bool.eqb x true = x.
Proof. by destruct x. Qed.

Lemma eqb_false_r (x : bool) : Bool.eqb x false = negb x.
Proof. by destruct x. Qed.

Section Paths.
Context {Store : Type} `{VuexStore Store}.
Variable KEY FLAG : string.
Variable mx : Mixins Store.
Implicit Types (w : World Store) (b l : bool).

Local Abbreviation toggle b w l := (activeChanged KEY FLAG mx b (start w l)).

Ltac timeline :=
  unfold requestLog, commitLog, emissionLog, activationEventName, opensModal,
    committed, changesCurrent, committedId, atResponse, response, requestId,
    snapshotLog, atRequest, requestData, snapshot, promptLog, afterPrompt,
    confirmed, prompt, prompts, savesWholeWorkflow, savedFirst, atValidation,
    failureText, with_store in *.

Ltac method :=
  cbv [activeChanged Method.bind Method.when Method.read Method.log
       Method.await Method.await_rest Method.try_catch Method.pure
       Method.return_ Method.set_loading showMessage showError store_commit
       store_dispatch localStorage_getItem start].

Ltac reduce :=
  cbn [world loading trace props store localStorage fst snd app andb negb
       is_undefined];
  rewrite ?eqb_true_r, ?eqb_false_r.

(* The value the next statement of the program branches on. *)
Ltac scrutinee t :=
  lazymatch t with
  | match ?x with _ => _ end => scrutinee x
  | (match ?x with _ => _ end) _ => scrutinee x
  | negb ?x => scrutinee x
  | andb ?x _ => scrutinee x
  | _ => t
  end.

Ltac program G :=
  lazymatch G with
  | _ -> ?G' => program G'
  | ?run = _ => run
  end.

(* One statement of the method: reduce, case on what it branches on, and
   drop the case when it leaves the path. *)
Ltac step :=
  reduce;
  let G := lazymatch goal with |- ?G => G end in
  let run := program G in
  let x := scrutinee run in
  lazymatch x with
  | (_, _) => fail
  | _ => destruct x
  end;
  reduce; try discriminate.

Ltac finish := reduce; intros; simplify_eq; reflexivity.

Lemma toggle_blocked b w l :
  nodesIssuesExist (atValidation mx w) = true ->
  toggle b w l
  = (Returned,
     {| world := atValidation mx w; loading := l;
        trace := savedFirst w
                 ++ [EvNodesIssuesCheck true; EvShowMessage blockingMessage] |}).
Proof. timeline. method. repeat step; finish. Qed.

Lemma toggle_cancelled b w l :
  nodesIssuesExist (atValidation mx w) = false ->
  confirmed mx b w = false ->
  toggle b w l
  = (Returned,
     {| world := afterPrompt mx b w; loading := l;
        trace := savedFirst w ++ [EvNodesIssuesCheck false]
                 ++ promptLog mx b w |}).
Proof. timeline. method. repeat step; finish. Qed.

Lemma toggle_failed b w l e :
  nodesIssuesExist (atValidation mx w) = false ->
  confirmed mx b w = true ->
  fst (response mx b w) = inl e ->
  toggle b w l
  = (Returned,
     {| world := atResponse mx b w; loading := false;
        trace := requestLog mx b w (Some e)
                 ++ [EvShowError e "Problem" (failureText b);
                     EvLoading false] |}).
Proof. timeline. method. repeat step; finish. Qed.

Lemma toggle_succeeded b w l :
  nodesIssuesExist (atValidation mx w) = false ->
  confirmed mx b w = true ->
  fst (response mx b w) = inr tt ->
  toggle b w l
  = (Normal tt,
     {| world := committed mx b w; loading := false;
        trace := requestLog mx b w None ++ commitLog KEY FLAG mx b w
                 ++ emissionLog mx b w
                 ++ [EvLoading false;
                     EvDispatch "settings/fetchPromptsData" None] |}).
Proof. timeline. method. repeat step; finish. Qed.

End Paths.

(** ** Properties of the log *)

Lemma guarded_before guard target log :
  guarded guard target log = true ->
  forall (before : list Event) ev after,
    log = (before ++ ev :: after)%list -> target ev = true ->
    List.existsb guard before = true.
Proof.
  induction log as [|first rest IH]; intros Hg before ev after Hsplit Htarget.
  - by destruct before.
  - destruct before as [|first' before]; simplify_eq/=.
    + by rewrite Htarget in Hg.
    + apply andb_prop in Hg as [_ Hg].
      destruct (guard first'); [done|]. by eapply IH.
Qed.

Lemma inOrder_adjacent rank log :
  Sorted (fun a b => rank a <= rank b) log -> inOrder rank log.
Proof.
  apply Sorted_StronglySorted. intros a c d Hac Hcd. by etrans.
Qed.

(** ** Properties of the toggle *)

Section Toggle.
Context {Store : Type} `{VuexStore Store}.
Variable KEY FLAG : string.
Variable mx : Mixins Store.
Implicit Types (w : World Store) (b l : bool).

Local Abbreviation toggle b w l := (activeChanged KEY FLAG mx b (start w l)).

(* Split a toggle into the four ways it can end. *)
Ltac paths b w l :=
  let Hissues := fresh "Hissues" in
  let Hconfirmed := fresh "Hconfirmed" in
  let Hresponse := fresh "Hresponse" in
  destruct (nodesIssuesExist (atValidation mx w)) eqn:Hissues;
  [ rewrite (toggle_blocked KEY FLAG mx b w l Hissues)
  | destruct (confirmed mx b w) eqn:Hconfirmed;
    [ destruct (fst (response mx b w)) as [?e|[]] eqn:Hresponse;
      [ rewrite (toggle_failed KEY FLAG mx b w l _ Hissues Hconfirmed Hresponse)
      | rewrite (toggle_succeeded KEY FLAG mx b w l Hissues Hconfirmed Hresponse) ]
    | rewrite (toggle_cancelled KEY FLAG mx b w l Hissues Hconfirmed) ] ];
  cbn [fst snd world loading trace].

(* Case on every optional piece of the log. *)
Ltac logs :=
  unfold requestLog, commitLog, emissionLog, savedFirst, promptLog,
    snapshotLog;
  repeat match goal with
         | |- context [if ?c then _ else _] => destruct c eqn:?
         end;
  cbn [app].

(** C1. When the validation check of line 107 finds node issues, the
    toggle, activating or deactivating, shows the blocking error message
    and returns: [updateWorkflow] is never called, and nothing but the
    optional save of an id-less workflow precedes the check. *)
Theorem node_issues_block_the_toggle b w l :
  nodesIssuesExist (atValidation mx w) = true ->
  fst (toggle b w l) = Returned
  /\ trace (snd (toggle b w l))
     = (savedFirst w
        ++ [EvNodesIssuesCheck true; EvShowMessage blockingMessage])%list
  /\ message blockingMessage
     = "It is only possible to activate a workflow when all issues on all nodes got resolved!"
  /\ List.filter isUpdateWorkflow (trace (snd (toggle b w l))) = []
  /\ world (snd (toggle b w l)) = atValidation mx w.
Proof.
  intros Hissues. rewrite (toggle_blocked KEY FLAG mx b w l Hissues).
  cbn [fst snd trace world]. repeat split. by logs.
Qed.

(** C2. A toggle that passes validation and is not declined at the prompt
    sends exactly one [updateWorkflow] request; its payload has [active]
    set to the new state; when the toggle activates the workflow that is
    open in the editor, the payload is the snapshot that
    [getWorkflowDataToSave] resolved to with [active] set, so it agrees
    with the snapshot on every other field; otherwise it holds [active]
    alone. *)
Theorem confirmed_toggle_sends_one_update b w l :
  nodesIssuesExist (atValidation mx w) = false ->
  confirmed mx b w = true ->
  (exists failure,
     List.filter isUpdateWorkflow (trace (snd (toggle b w l)))
     = [EvUpdateWorkflow (requestId mx b w) (requestData mx b w) failure])
  /\ requestData mx b w !! "active" = Some (VBool b)
  /\ (b = true ->
      workflowId (props (atValidation mx w))
      = getters_workflowId (store (atValidation mx w)) ->
      List.filter isSnapshot (trace (snd (toggle b w l)))
      = [EvGetWorkflowDataToSave]
      /\ requestData mx b w = <["active" := VBool true]> (snapshot mx b w)
      /\ forall field, field <> "active" ->
           requestData mx b w !! field = snapshot mx b w !! field)
  /\ (savesWholeWorkflow mx b w = false ->
      requestData mx b w = {["active" := VBool b]}).
Proof.
  intros Hissues Hconfirmed. split; [|split; [|split]].
  - destruct (fst (response mx b w)) as [e|[]] eqn:Hresponse.
    + rewrite (toggle_failed KEY FLAG mx b w l e) by done.
      exists (Some e). by logs.
    + rewrite (toggle_succeeded KEY FLAG mx b w l) by done.
      exists None. by logs.
  - apply lookup_insert_eq.
  - intros -> Hopen.
    assert (Hwhole : savesWholeWorkflow mx true w = true).
    { unfold savesWholeWorkflow. by rewrite bool_decide_eq_true_2. }
    split; [|split].
    + destruct (fst (response mx true w)) as [e|[]] eqn:Hresponse.
      * rewrite (toggle_failed KEY FLAG mx true w l e) by done.
        cbn [snd trace]. unfold requestLog, snapshotLog. rewrite Hwhole.
        by logs.
      * rewrite (toggle_succeeded KEY FLAG mx true w l) by done.
        cbn [snd trace]. unfold requestLog, snapshotLog. rewrite Hwhole.
        by logs.
    + unfold requestData. by rewrite Hwhole.
    + intros field Hfield. unfold requestData. rewrite Hwhole.
      by apply lookup_insert_ne.
  - intros Hpart. unfold requestData. by rewrite Hpart.
Qed.

(** C3. When the [updateWorkflow] request is rejected, the toggle shows
    the error dialog, sets [loading] back to [false] and returns; it
    commits nothing, so the store is the one the rejected request left. *)
Theorem failed_update_commits_nothing b w l :
  List.existsb isFailedUpdate (trace (snd (toggle b w l))) = true ->
  fst (toggle b w l) = Returned
  /\ (exists e,
        fst (response mx b w) = inl e
        /\ trace (snd (toggle b w l))
           = (requestLog mx b w (Some e)
              ++ [EvShowError e "Problem" (failureText b);
                  EvLoading false])%list)
  /\ loading (snd (toggle b w l)) = false
  /\ List.filter isCommit (trace (snd (toggle b w l))) = []
  /\ store (world (snd (toggle b w l))) = store (atResponse mx b w).
Proof.
  paths b w l.
  - logs; discriminate.
  - intros _. repeat split; [by exists e | by logs].
  - logs; discriminate.
  - logs; discriminate.
Qed.

(** C5. Activating the workflow that is open in the editor while it is
    dirty: every [updateWorkflow] call of the toggle comes after the
    confirmation prompt, the prompt is shown whenever validation passes,
    and when the user declines it the toggle returns with no request sent,
    nothing committed and the store as the prompt left it. *)
Theorem dirty_activation_prompts_first w l :
  workflowId (props (atValidation mx w))
  = getters_workflowId (store (atValidation mx w)) ->
  dirtyState (atValidation mx w) = true ->
  (forall (before : list Event) ev after,
     trace (snd (toggle true w l)) = (before ++ ev :: after)%list ->
     isUpdateWorkflow ev = true ->
     List.existsb isConfirm before = true)
  /\ (nodesIssuesExist (atValidation mx w) = false ->
      List.filter isConfirm (trace (snd (toggle true w l)))
      = [EvConfirmMessage confirmText "Activate and save?" "warning"
           "Yes, activate and save!" (fst (prompt mx w))])
  /\ (List.existsb isDeclined (trace (snd (toggle true w l))) = true ->
      fst (toggle true w l) = Returned
      /\ List.filter isUpdateWorkflow (trace (snd (toggle true w l))) = []
      /\ List.filter isCommit (trace (snd (toggle true w l))) = []
      /\ world (snd (toggle true w l)) = snd (prompt mx w)
      /\ loading (snd (toggle true w l)) = l).
Proof.
  intros Hopen Hdirty.
  assert (Hprompts : prompts mx true w = true).
  { unfold prompts, savesWholeWorkflow.
    by rewrite bool_decide_eq_true_2, Hdirty. }
  assert (Hwhole : savesWholeWorkflow mx true w = true).
  { unfold prompts in Hprompts. by apply andb_prop in Hprompts as [? _]. }
  split; [|split].
  - apply guarded_before. paths true w l; unfold requestLog, promptLog;
      rewrite ?Hprompts; by logs.
  - paths true w l; intros ?; try done; unfold requestLog, promptLog;
      rewrite ?Hprompts; by logs.
  - paths true w l; unfold requestLog, promptLog, afterPrompt;
      rewrite ?Hprompts.
    + logs; discriminate.
    + unfold confirmed in *. rewrite Hprompts in *.
      rewrite Hconfirmed. logs; discriminate.
    + unfold confirmed in *. rewrite Hprompts in *.
      rewrite Hconfirmed. logs; discriminate.
    + intros _. repeat split; by logs.
Qed.

(* A concrete log is in order when its neighbours are. *)
Ltac in_order :=
  apply inOrder_adjacent;
  repeat first [ apply Sorted_nil | apply Sorted_cons
               | apply HdRel_nil | apply HdRel_cons ];
  cbn [stage listedStage String.eqb Ascii.eqb Bool.eqb]; lia.

(** C7, as the code has it. The calls of a toggle are made in the order:
    [saveCurrentWorkflow] for a workflow without an id, the validation
    check, the confirmation prompt, the collection of the snapshot, the
    request (with [loading] set before it and the error dialog after a
    rejection), the commits and the modal, the hook, telemetry and
    component events, the reset of [loading], the refresh of the prompts.
    When the prop holds an id no save is made and the order is the listed
    one. *)
Theorem toggle_calls_in_order b w l :
  inOrder stage (trace (snd (toggle b w l)))
  /\ (is_undefined (workflowId (props w)) = false ->
      inOrder listedStage (trace (snd (toggle b w l)))).
Proof.
  split.
  - paths b w l; logs; in_order.
  - intros Hid. paths b w l; unfold requestLog, savedFirst; rewrite Hid;
      logs; in_order.
Qed.

(** C8, as the code has it. After a successful activation the
    workflow-active modal is opened exactly when the switch belongs to the
    workflow open in the editor and local storage holds no non-empty value
    under the activation flag: it is opened once when the workflow is the
    open one and the flag is absent, and not at all when the flag holds a
    non-empty value or when the workflow is not the open one. *)
Theorem activation_modal_only_for_open_workflow w l :
  List.existsb isResolvedUpdate (trace (snd (toggle true w l))) = true ->
  (isCurrentWorkflow (committed mx true w) = true ->
   localStorage (committed mx true w) !! FLAG = None ->
   List.filter isModal (trace (snd (toggle true w l)))
   = [EvDispatch "ui/openModal" (Some KEY)])
  /\ (forall v,
        localStorage (committed mx true w) !! FLAG = Some v -> v <> "" ->
        List.filter isModal (trace (snd (toggle true w l))) = [])
  /\ (isCurrentWorkflow (committed mx true w) = false ->
      List.filter isModal (trace (snd (toggle true w l))) = []).
Proof.
  paths true w l; try (logs; discriminate). intros _.
  unfold commitLog, opensModal. split; [|split].
  - intros -> ->. by logs.
  - intros v -> Hv. cbn [truthy].
    replace (String.eqb v "") with false
      by (symmetry; by apply String.eqb_neq).
    rewrite andb_false_r. by logs.
  - intros ->. by logs.
Qed.

(** C10. A toggle whose [workflowId] prop is undefined calls
    [saveCurrentWorkflow] first, then makes the node-issues check, and
    does not save again; a toggle whose prop holds an id never calls
    [saveCurrentWorkflow]. *)
Theorem save_first_exactly_without_id b w l :
  match workflowId (props w) with
  | None =>
      exists rest,
        trace (snd (toggle b w l))
        = EvSaveCurrentWorkflow
            :: EvNodesIssuesCheck (nodesIssuesExist (atValidation mx w))
            :: rest
        /\ List.filter isSave rest = []
  | Some _ => List.filter isSave (trace (snd (toggle b w l))) = []
  end.
Proof.
  destruct (workflowId (props w)) as [id|] eqn:Hid.
  - paths b w l; unfold requestLog, savedFirst; rewrite Hid; by logs.
  - paths b w l; unfold requestLog, savedFirst; rewrite Hid;
      cbn [is_undefined app]; eexists; (split; [reflexivity|]); by logs.
Qed.

End Toggle.

(** ** Properties of the computed values and of the error lookup *)

Section Computed.
Context {Store : Type} `{VuexStore Store}.
Implicit Types (w : World Store).

Lemma isWorkflowActive_spec w :
  isWorkflowActive w = true
  <-> exists id, workflowId (props w) = Some id
                 /\ id ∈ getters_getActiveWorkflows (store w).
Proof.
  unfold isWorkflowActive. destruct (workflowId (props w)) as [id|].
  - rewrite bool_decide_eq_true. split.
    + intros Hin. by exists id.
    + by intros (id' & [= <-] & Hin).
  - split; [done | by intros (id & Hid & _)].
Qed.

(** C6. [couldNotBeStarted] is the conjunction of the [workflowActive]
    prop and the negation of [isWorkflowActive], for each of the four
    values of the two booleans; it is true exactly when the prop is true
    and the active-workflow set of the store does not hold the id. *)
Theorem couldNotBeStarted_is_the_mismatch w :
  couldNotBeStarted w = workflowActive (props w) && negb (isWorkflowActive w)
  /\ (couldNotBeStarted w = true
      <-> workflowActive (props w) = true
          /\ ~ exists id, workflowId (props w) = Some id
                          /\ id ∈ getters_getActiveWorkflows (store w)).
Proof.
  assert (Heq : couldNotBeStarted w
                = workflowActive (props w) && negb (isWorkflowActive w)).
  { unfold couldNotBeStarted.
    by destruct (workflowActive (props w)), (isWorkflowActive w). }
  split; [done|]. rewrite Heq, andb_true_iff, negb_true_iff.
  rewrite <- isWorkflowActive_spec, not_true_iff_false. done.
Qed.

Lemma containsTrigger_spec w :
  containsTrigger w = false
  <-> List.filter node_enabled (getters_workflowTriggerNodes (store w)) = [].
Proof.
  unfold containsTrigger.
  by destruct (List.filter node_enabled (getters_workflowTriggerNodes (store w))).
Qed.

(** C4, as the code has it. The switch of a workflow that is not the one
    open in the editor is never disabled; the switch is disabled exactly
    when the workflow is the open one, its [workflowActive] prop is false
    and no trigger node of the open workflow is enabled. *)
Theorem disabled_only_for_open_workflow w :
  disabled w
  = isCurrentWorkflow w && negb (workflowActive (props w))
    && negb (containsTrigger w)
  /\ (isCurrentWorkflow w = false -> disabled w = false)
  /\ (isCurrentWorkflow w = true ->
      workflowActive (props w) = false ->
      List.filter node_enabled (getters_workflowTriggerNodes (store w)) = [] ->
      disabled w = true).
Proof.
  unfold disabled. split; [|split].
  - by destruct (isCurrentWorkflow w).
  - by intros ->.
  - intros -> -> Hnone. apply containsTrigger_spec in Hnone.
    by rewrite Hnone.
Qed.

End Computed.

Section Lookup.
Context {Store : Type}.
Variable mx : Mixins Store.
Implicit Types (w : World Store) (l : bool).

(** C9. [displayActivationError] ends normally whatever the lookup does
    and shows exactly one dialog, a warning: with the generic text when
    [getActivationError] is rejected, with the text that no error was
    found when it resolves to [undefined], and with the recorded error
    message otherwise; the three texts differ from one another. *)
Theorem activation_error_shown_once w l :
  let id := workflowId (props w) in
  let reply := fst (getActivationError mx id w) in
  let text :=
    match reply with
    | inl _ => "Sorry there was a problem requesting the error"
    | inr None => "Sorry there was a problem. No error got found to display."
    | inr (Some errorData) =>
        "The following error occurred on workflow activation:<br /><i>"
          +:+ error_message errorData +:+ "</i>"
    end in
  fst (displayActivationError mx (start w l)) = Normal tt
  /\ trace (snd (displayActivationError mx (start w l)))
     = [EvGetActivationError id
          match reply with inl _ => true | inr _ => false end;
        EvShowMessage {| title := "Problem activating workflow";
                         message := text;
                         type := "warning";
                         duration := Some 0%Z |}]
  /\ world (snd (displayActivationError mx (start w l)))
     = snd (getActivationError mx id w)
  /\ "Sorry there was a problem requesting the error"
     <> "Sorry there was a problem. No error got found to display."
  /\ forall errorData,
       "The following error occurred on workflow activation:<br /><i>"
         +:+ error_message errorData +:+ "</i>"
       <> "Sorry there was a problem requesting the error"
       /\ "The following error occurred on workflow activation:<br /><i>"
            +:+ error_message errorData +:+ "</i>"
          <> "Sorry there was a problem. No error got found to display.".
Proof.
  cbv zeta.
  cbv [displayActivationError Method.bind Method.read Method.log
       Method.await_rest Method.try_catch Method.pure showMessage start].
  cbn [world loading trace fst snd app].
  destruct (getActivationError mx (workflowId (props w)) w)
    as [[e|[errorData|]] w'];
    cbn [world loading trace fst snd app]; repeat split; discriminate.
Qed.

End Lookup.

(** ** Concrete runs *)

Module Examples.
Import Demo.

(** A toggle on the switch of workflow [id] while workflow ["1"] is open. *)
Local Abbreviation run answer reply newActiveState id issues dirty flag :=
  (activeChanged MODAL_KEY FLAG
     (collaborators answer Demo.snapshot reply (inr None)) newActiveState
     (start (initial id false issues dirty flag) false)).

Lemma node_issues_block_the_toggle_witness :
  nodesIssuesExist
    (atValidation (collaborators true Demo.snapshot (inr tt) (inr None))
       (initial (Some "1") false true false None)) = true
  /\ fst (run true (inr tt) true (Some "1") true false None) = Returned.
Proof.
  split; [reflexivity|].
  apply (node_issues_block_the_toggle MODAL_KEY FLAG
           (collaborators true Demo.snapshot (inr tt) (inr None)) true
           (initial (Some "1") false true false None) false).
  reflexivity.
Defined.

Lemma confirmed_toggle_sends_one_update_witness :
  nodesIssuesExist
    (atValidation (collaborators true Demo.snapshot (inr tt) (inr None))
       (initial (Some "1") false false true None)) = false
  /\ confirmed (collaborators true Demo.snapshot (inr tt) (inr None)) true
       (initial (Some "1") false false true None) = true
  /\ requestData (collaborators true Demo.snapshot (inr tt) (inr None)) true
       (initial (Some "1") false false true None) !! "active"
     = Some (VBool true).
Proof.
  split; [reflexivity|]. split; [reflexivity|].
  apply (confirmed_toggle_sends_one_update MODAL_KEY FLAG
           (collaborators true Demo.snapshot (inr tt) (inr None)) true
           (initial (Some "1") false false true None) false);
    reflexivity.
Defined.

Lemma failed_update_commits_nothing_witness :
  List.existsb isFailedUpdate
    (trace (snd (run true (inl "timeout") true (Some "1") false false None)))
  = true
  /\ loading (snd (run true (inl "timeout") true (Some "1") false false None))
     = false.
Proof.
  split; [vm_compute; reflexivity|].
  apply (failed_update_commits_nothing MODAL_KEY FLAG
           (collaborators true Demo.snapshot (inl "timeout") (inr None)) true
           (initial (Some "1") false false false None) false).
  vm_compute; reflexivity.
Defined.

Lemma dirty_activation_prompts_first_witness :
  List.existsb isDeclined
    (trace (snd (run false (inr tt) true (Some "1") false true None))) = true
  /\ fst (run false (inr tt) true (Some "1") false true None) = Returned.
Proof.
  split; [vm_compute; reflexivity|].
  apply (dirty_activation_prompts_first MODAL_KEY FLAG
           (collaborators false Demo.snapshot (inr tt) (inr None))
           (initial (Some "1") false false true None) false);
    [reflexivity | reflexivity | vm_compute; reflexivity].
Defined.

Lemma toggle_calls_in_order_witness :
  is_undefined (workflowId (props (initial (Some "2") true false false None)))
  = false
  /\ inOrder listedStage
       (trace (snd (run true (inr tt) false (Some "2") false false None))).
Proof.
  split; [reflexivity|].
  apply (toggle_calls_in_order MODAL_KEY FLAG
           (collaborators true Demo.snapshot (inr tt) (inr None)) false
           (initial (Some "2") false false false None) false).
  reflexivity.
Defined.

(** C7 fails as listed: a workflow without an id is saved before the
    validation check, while the list has validation first and the save
    third. *)
Lemma save_precedes_validation :
  ~ inOrder listedStage
      (trace (snd (run true (inr tt) true None true false None))).
Proof.
  vm_compute. intros Horder.
  apply StronglySorted_inv in Horder as [_ Hfirst].
  apply Forall_inv in Hfirst. cbn in Hfirst. lia.
Qed.

Lemma activation_modal_only_for_open_workflow_witness :
  List.existsb isResolvedUpdate
    (trace (snd (run true (inr tt) true (Some "1") false false None))) = true
  /\ List.filter isModal
       (trace (snd (run true (inr tt) true (Some "1") false false None)))
     = [EvDispatch "ui/openModal" (Some MODAL_KEY)].
Proof.
  split; [vm_compute; reflexivity|].
  apply (activation_modal_only_for_open_workflow MODAL_KEY FLAG
           (collaborators true Demo.snapshot (inr tt) (inr None))
           (initial (Some "1") false false false None) false);
    vm_compute; reflexivity.
Defined.

(** C8 fails as stated: workflow ["2"] is activated from a switch while
    workflow ["1"] is open; the request resolves, the flag is absent from
    local storage, and no modal is opened. *)
Lemma no_modal_for_other_workflow :
  List.existsb isResolvedUpdate
    (trace (snd (run true (inr tt) true (Some "2") false false None))) = true
  /\ localStorage
       (world (snd (run true (inr tt) true (Some "2") false false None)))
     !! FLAG = None
  /\ List.filter isModal
       (trace (snd (run true (inr tt) true (Some "2") false false None)))
     = [].
Proof. vm_compute. done. Qed.

(** C4 fails as stated: the switch of workflow ["2"], which is not the
    open workflow and sees no enabled trigger node, is not disabled. *)
Lemma switch_of_other_workflow_enabled :
  containsTrigger (initial (Some "2") false false false None) = false
  /\ isCurrentWorkflow (initial (Some "2") false false false None) = false
  /\ disabled (initial (Some "2") false false false None) <> true.
Proof. vm_compute. done. Qed.

Lemma disabled_only_for_open_workflow_witness :
  isCurrentWorkflow (initial (Some "1") false false false None) = true
  /\ disabled (initial (Some "1") false false false None) = true.
Proof.
  split; [reflexivity|].
  apply (disabled_only_for_open_workflow
           (initial (Some "1") false false false None)); reflexivity.
Defined.

End Examples.

(** ** Further properties of the toggle *)

Section Outcomes.
Context {Store : Type} `{VuexStore Store}.
Variable KEY FLAG : string.
Variable mx : Mixins Store.
Implicit Types (w : World Store) (b l : bool).

Local Abbreviation toggle b w l := (activeChanged KEY FLAG mx b (start w l)).

(* The four ways a toggle ends, each with its final state. *)
Ltac ways b w l :=
  let Hissues := fresh "Hissues" in
  let Hconfirmed := fresh "Hconfirmed" in
  let Hresponse := fresh "Hresponse" in
  destruct (nodesIssuesExist (atValidation mx w)) eqn:Hissues;
  [ rewrite (toggle_blocked KEY FLAG mx b w l Hissues)
  | destruct (confirmed mx b w) eqn:Hconfirmed;
    [ destruct (fst (response mx b w)) as [?e|[]] eqn:Hresponse;
      [ rewrite (toggle_failed KEY FLAG mx b w l _ Hissues Hconfirmed Hresponse)
      | rewrite (toggle_succeeded KEY FLAG mx b w l Hissues Hconfirmed Hresponse) ]
    | rewrite (toggle_cancelled KEY FLAG mx b w l Hissues Hconfirmed) ] ];
  cbn [fst snd world loading trace].

Ltac pieces :=
  unfold requestLog, commitLog, emissionLog, savedFirst, promptLog,
    snapshotLog;
  repeat match goal with
         | |- context [if ?c then _ else _] => destruct c eqn:?
         end;
  cbn [app].



(** X3. Nothing is committed, shown as modal or notified before the server
    has acknowledged the change: every commit, modal dispatch, hook,
    telemetry record and component event of a toggle comes after a
    resolved [updateWorkflow] call. *)
Theorem effects_follow_the_acknowledgement b w l :
  forall (before : list Event) ev after,
    trace (snd (toggle b w l)) = (before ++ ev :: after)%list ->
    isEffectOfSuccess ev = true ->
    List.existsb isResolvedUpdate before = true.
Proof.
  apply guarded_before. ways b w l; by pieces.
Qed.

(** X4. A toggle whose request resolved commits [setActive] only when the
    store's open workflow is the one of the switch, then
    [setWorkflowActive] or [setWorkflowInactive] by the new state; it
    notifies once through each of the hook, telemetry and the component
    event, with the same id and state, and the hook is named
    [workflow.activeChangeCurrent] exactly when [setActive] was
    committed. The store it leaves is the one the request left with these
    commits applied. *)
Theorem resolved_toggle_commits_and_notifies b w l :
  fst (toggle b w l) = Normal tt ->
  List.filter isCommit (trace (snd (toggle b w l)))
  = ((if changesCurrent mx b w then [EvCommit (setActive b)] else [])
     ++ [EvCommit (if b then setWorkflowActive (committedId mx b w)
                   else setWorkflowInactive (committedId mx b w))])%list
  /\ List.filter isEmission (trace (snd (toggle b w l)))
     = [EvExternalHook
          (if changesCurrent mx b w then "workflow.activeChangeCurrent"
           else "workflow.activeChange")
          (committedId mx b w) b;
        EvTelemetryTrack "User set workflow active status"
          (committedId mx b w) b;
        EvEmit "workflowActiveChanged" (committedId mx b w) b]
  /\ store (world (snd (toggle b w l)))
     = commit (if b then setWorkflowActive (committedId mx b w)
               else setWorkflowInactive (committedId mx b w))
         (if changesCurrent mx b w
          then commit (setActive b) (store (atResponse mx b w))
          else store (atResponse mx b w))
  /\ props (world (snd (toggle b w l))) = props (atResponse mx b w)
  /\ (b = false -> List.filter isModal (trace (snd (toggle b w l))) = []).
Proof.
  ways b w l; try discriminate. intros _.
  unfold committed, with_store, emissionLog, activationEventName.
  cbn [store props]. repeat split; try (intros ->); pieces; done.
Qed.

End Outcomes.

Section Branches.
Context {Store : Type} `{VuexStore Store}.
Variable KEY FLAG : string.
Variable mx : Mixins Store.
Implicit Types (w : World Store) (b l : bool).

Local Abbreviation toggle b w l := (activeChanged KEY FLAG mx b (start w l)).

Ltac ways b w l :=
  let Hissues := fresh "Hissues" in
  let Hconfirmed := fresh "Hconfirmed" in
  let Hresponse := fresh "Hresponse" in
  destruct (nodesIssuesExist (atValidation mx w)) eqn:Hissues;
  [ rewrite (toggle_blocked KEY FLAG mx b w l Hissues)
  | destruct (confirmed mx b w) eqn:Hconfirmed;
    [ destruct (fst (response mx b w)) as [?e|[]] eqn:Hresponse;
      [ rewrite (toggle_failed KEY FLAG mx b w l _ Hissues Hconfirmed Hresponse)
      | rewrite (toggle_succeeded KEY FLAG mx b w l Hissues Hconfirmed Hresponse) ]
    | rewrite (toggle_cancelled KEY FLAG mx b w l Hissues Hconfirmed) ] ];
  cbn [fst snd world loading trace].

Ltac pieces :=
  unfold requestLog, commitLog, emissionLog, savedFirst, promptLog,
    snapshotLog;
  repeat match goal with
         | |- context [if ?c then _ else _] => destruct c eqn:?
         end;
  cbn [app].

Lemma savesWholeWorkflow_false b w :
  b = false
  \/ workflowId (props (atValidation mx w))
     <> getters_workflowId (store (atValidation mx w)) ->
  savesWholeWorkflow mx b w = false.
Proof.
  unfold savesWholeWorkflow. intros [->|Hother]; [done|].
  rewrite bool_decide_eq_false_2 by done. apply andb_false_r.
Qed.

(** X5. Deactivating a workflow, or toggling a switch that does not belong
    to the workflow open in the editor, never asks for confirmation and
    never collects the editor's workflow, even when the editor is dirty:
    the request, when validation lets it through, carries the [active]
    flag alone and the id the prop held at validation. *)
Theorem plain_toggle_sends_the_flag_alone b w l :
  b = false
  \/ workflowId (props (atValidation mx w))
     <> getters_workflowId (store (atValidation mx w)) ->
  List.filter isConfirm (trace (snd (toggle b w l))) = []
  /\ List.filter isSnapshot (trace (snd (toggle b w l))) = []
  /\ exists failure,
       List.filter isUpdateWorkflow (trace (snd (toggle b w l)))
       = if nodesIssuesExist (atValidation mx w) then []
         else [EvUpdateWorkflow (workflowId (props (atValidation mx w)))
                 {["active" := VBool b]} failure].
Proof.
  intros Hplain. apply savesWholeWorkflow_false in Hplain.
  assert (Hprompts : prompts mx b w = false).
  { unfold prompts. by rewrite Hplain. }
  assert (Hconfirmed : confirmed mx b w = true).
  { unfold confirmed. by rewrite Hprompts. }
  assert (Hdata : requestData mx b w = {["active" := VBool b]}).
  { unfold requestData. by rewrite Hplain. }
  assert (Hid : requestId mx b w = workflowId (props (atValidation mx w))).
  { unfold requestId, atRequest. by rewrite Hplain. }
  destruct (nodesIssuesExist (atValidation mx w)) eqn:Hissues.
  - rewrite (toggle_blocked KEY FLAG mx b w l Hissues). cbn [snd trace].
    split; [|split; [|exists None]]; by pieces.
  - destruct (fst (response mx b w)) as [e|[]] eqn:Hresponse.
    + rewrite (toggle_failed KEY FLAG mx b w l e) by done. cbn [snd trace].
      unfold requestLog, promptLog, snapshotLog.
      rewrite Hplain, Hprompts, Hdata, Hid.
      split; [|split; [|exists (Some e)]]; by pieces.
    + rewrite (toggle_succeeded KEY FLAG mx b w l) by done. cbn [snd trace].
      unfold requestLog, promptLog, snapshotLog.
      rewrite Hplain, Hprompts, Hdata, Hid.
      split; [|split; [|exists None]]; by pieces.
Qed.

(** X6. Activating the workflow open in the editor while it has no unsaved
    change asks for no confirmation and, once validation has passed,
    still collects the editor's workflow and sends it with [active] set;
    the id of the request is the one the prop holds after the collection. *)
Theorem clean_activation_sends_the_workflow w l :
  workflowId (props (atValidation mx w))
  = getters_workflowId (store (atValidation mx w)) ->
  dirtyState (atValidation mx w) = false ->
  nodesIssuesExist (atValidation mx w) = false ->
  List.filter isConfirm (trace (snd (toggle true w l))) = []
  /\ List.filter isSnapshot (trace (snd (toggle true w l)))
     = [EvGetWorkflowDataToSave]
  /\ exists failure,
       List.filter isUpdateWorkflow (trace (snd (toggle true w l)))
       = [EvUpdateWorkflow
            (workflowId
               (props (snd (getWorkflowDataToSave mx (atValidation mx w)))))
            (<["active" := VBool true]>
               (fst (getWorkflowDataToSave mx (atValidation mx w))))
            failure].
Proof.
  intros Hopen Hclean Hissues.
  assert (Hwhole : savesWholeWorkflow mx true w = true).
  { unfold savesWholeWorkflow. by rewrite bool_decide_eq_true_2. }
  assert (Hprompts : prompts mx true w = false).
  { unfold prompts. by rewrite Hwhole, Hclean. }
  assert (Hconfirmed : confirmed mx true w = true).
  { unfold confirmed. by rewrite Hprompts. }
  assert (Hafter : afterPrompt mx true w = atValidation mx w).
  { unfold afterPrompt. by rewrite Hprompts. }
  assert (Hdata : requestData mx true w
                  = <["active" := VBool true]>
                      (fst (getWorkflowDataToSave mx (atValidation mx w)))).
  { unfold requestData, snapshot. by rewrite Hwhole, Hafter. }
  assert (Hid : requestId mx true w
                = workflowId
                    (props (snd (getWorkflowDataToSave mx (atValidation mx w))))).
  { unfold requestId, atRequest. by rewrite Hwhole, Hafter. }
  destruct (fst (response mx true w)) as [e|[]] eqn:Hresponse.
  - rewrite (toggle_failed KEY FLAG mx true w l e) by done. cbn [snd trace].
    unfold requestLog, promptLog, snapshotLog.
    rewrite Hwhole, Hprompts, Hdata, Hid.
    split; [|split; [|exists (Some e)]]; by pieces.
  - rewrite (toggle_succeeded KEY FLAG mx true w l) by done. cbn [snd trace].
    unfold requestLog, promptLog, snapshotLog.
    rewrite Hwhole, Hprompts, Hdata, Hid.
    split; [|split; [|exists None]]; by pieces.
Qed.

(** X7. The loading flag is no lock: the method never reads it. A toggle
    started while [loading] is already [true] makes the same calls, ends
    the same way and leaves the same world as one started while it is
    [false]. *)
Theorem toggle_ignores_loading b w l l' :
  fst (activeChanged KEY FLAG mx b (start w l))
  = fst (activeChanged KEY FLAG mx b (start w l'))
  /\ trace (snd (activeChanged KEY FLAG mx b (start w l)))
     = trace (snd (activeChanged KEY FLAG mx b (start w l')))
  /\ world (snd (activeChanged KEY FLAG mx b (start w l)))
     = world (snd (activeChanged KEY FLAG mx b (start w l'))).
Proof.
  destruct (nodesIssuesExist (atValidation mx w)) eqn:Hissues.
  - by rewrite !(toggle_blocked KEY FLAG mx b w _ Hissues).
  - destruct (confirmed mx b w) eqn:Hconfirmed.
    + destruct (fst (response mx b w)) as [e|[]] eqn:Hresponse.
      * by rewrite !(toggle_failed KEY FLAG mx b w _ e Hissues Hconfirmed
                       Hresponse).
      * by rewrite !(toggle_succeeded KEY FLAG mx b w _ Hissues Hconfirmed
                       Hresponse).
    + by rewrite !(toggle_cancelled KEY FLAG mx b w _ Hissues Hconfirmed).
Qed.

(** X8. The value [saveCurrentWorkflow] resolves to is never looked at: a
    toggle goes on to the validation check in the world the save left,
    whatever the save answered. *)
Theorem toggle_ignores_save_result answer b w l :
  activeChanged KEY FLAG (withSaveResult answer mx) b (start w l)
  = toggle b w l.
Proof.
  cbv [activeChanged Method.bind Method.when Method.await Method.read
       Method.pure start].
  cbn [world loading trace withSaveResult saveCurrentWorkflow confirmMessage
       getWorkflowDataToSave updateWorkflow].
  destruct (is_undefined (workflowId (props w))); [|reflexivity].
  cbn [world loading trace fst snd].
  destruct (saveCurrentWorkflow mx w) as [saved w1]. reflexivity.
Qed.

End Branches.

(** ** Further properties of the computed values *)

Section Switch.
Context {Store : Type} `{VuexStore Store}.
Implicit Types (w : World Store).


(** X10. A switch whose [workflowId] prop is undefined or the empty string
    is never the one of the open workflow, even when the store holds the
    same value as its workflow id, and is never disabled; with an undefined
    id the workflow is never in the active set, so the warning shows
    exactly when the prop [workflowActive] is true. *)
Theorem switch_without_id_is_enabled w :
  (truthy (workflowId (props w)) = false ->
   isCurrentWorkflow w = false /\ disabled w = false)
  /\ (workflowId (props w) = None ->
      isWorkflowActive w = false
      /\ couldNotBeStarted w = workflowActive (props w)).
Proof.
  split.
  - intros Hfalsy. unfold disabled, isCurrentWorkflow. by rewrite Hfalsy.
  - intros Hnone. unfold couldNotBeStarted, isWorkflowActive.
    rewrite Hnone. by destruct (workflowActive (props w)).
Qed.

(** X11. [containsTrigger] holds exactly when some trigger node of the
    open workflow is not switched off: a node whose [disabled] field is
    absent or [false] counts, a node with [disabled: true] does not. *)
Theorem containsTrigger_enabled_node w :
  containsTrigger w = true
  <-> exists node,
        List.In node (getters_workflowTriggerNodes (store w))
        /\ node_disabled node <> Some true.
Proof.
  unfold containsTrigger.
  assert (Henabled : forall node,
             node_enabled node = true <-> node_disabled node <> Some true).
  { intros [name [[]|]]; unfold node_enabled; cbn; split; congruence. }
  split.
  - destruct (List.filter node_enabled (getters_workflowTriggerNodes (store w)))
      as [|node found] eqn:Hfound; [done|]. intros _.
    assert (Hin : List.In node
                    (List.filter node_enabled
                       (getters_workflowTriggerNodes (store w)))).
    { rewrite Hfound. by left. }
    apply List.filter_In in Hin as [Hin Hon].
    exists node. split; [done|]. by apply Henabled.
  - intros (node & Hin & Hon).
    assert (Hfound : List.In node
                       (List.filter node_enabled
                          (getters_workflowTriggerNodes (store w)))).
    { apply List.filter_In. split; [done|]. by apply Henabled. }
    by destruct (List.filter node_enabled
                   (getters_workflowTriggerNodes (store w))).
Qed.

End Switch.

(** ** Further concrete runs *)

Module Runs.
Import Demo.

Local Abbreviation run answer reply newActiveState id issues dirty flag :=
  (activeChanged MODAL_KEY FLAG
     (collaborators answer Demo.snapshot reply (inr None)) newActiveState
     (start (initial id false issues dirty flag) false)).

Lemma effects_follow_the_acknowledgement_witness :
  trace (snd (run true (inr tt) true (Some "1") false false None))
  = (List.firstn 4
       (trace (snd (run true (inr tt) true (Some "1") false false None)))
     ++ EvCommit (setActive true)
        :: List.skipn 5
             (trace (snd (run true (inr tt) true (Some "1") false false None))))%list
  /\ List.existsb isResolvedUpdate
       (List.firstn 4
          (trace (snd (run true (inr tt) true (Some "1") false false None))))
     = true.
Proof.
  split; [vm_compute; reflexivity|].
  apply (effects_follow_the_acknowledgement MODAL_KEY FLAG
           (collaborators true Demo.snapshot (inr tt) (inr None)) true
           (initial (Some "1") false false false None) false
           _ (EvCommit (setActive true))
           (List.skipn 5
              (trace (snd (run true (inr tt) true (Some "1") false false None)))));
    vm_compute; reflexivity.
Defined.

Lemma resolved_toggle_commits_and_notifies_witness :
  fst (run true (inr tt) false (Some "2") false true None) = Normal tt
  /\ List.filter isModal
       (trace (snd (run true (inr tt) false (Some "2") false true None)))
     = [].
Proof.
  split; [vm_compute; reflexivity|].
  apply (resolved_toggle_commits_and_notifies MODAL_KEY FLAG
           (collaborators true Demo.snapshot (inr tt) (inr None)) false
           (initial (Some "2") false false true None) false);
    [vm_compute; reflexivity | reflexivity].
Defined.

Lemma plain_toggle_sends_the_flag_alone_witness :
  List.filter isConfirm
    (trace (snd (run true (inr tt) false (Some "1") false true None)))
  = [].
Proof.
  apply (plain_toggle_sends_the_flag_alone MODAL_KEY FLAG
           (collaborators true Demo.snapshot (inr tt) (inr None)) false
           (initial (Some "1") false false true None) false).
  left. reflexivity.
Defined.

Lemma clean_activation_sends_the_workflow_witness :
  dirtyState
    (atValidation (collaborators true Demo.snapshot (inr tt) (inr None))
       (initial (Some "1") false false false None)) = false
  /\ List.filter isSnapshot
       (trace (snd (run true (inr tt) true (Some "1") false false None)))
     = [EvGetWorkflowDataToSave].
Proof.
  split; [reflexivity|].
  apply (clean_activation_sends_the_workflow MODAL_KEY FLAG
           (collaborators true Demo.snapshot (inr tt) (inr None))
           (initial (Some "1") false false false None) false);
    reflexivity.
Defined.


Lemma switch_without_id_is_enabled_witness :
  truthy (workflowId (props (initial (Some "") false false false None)))
  = false
  /\ disabled (initial (Some "") false false false None) = false.
Proof.
  split; [reflexivity|].
  apply (proj1 (switch_without_id_is_enabled
                  (initial (Some "") false false false None))).
  reflexivity.
Defined.

End Runs.
